(** * Lambda-PDF-Generator: the request handler [generate_pdf]

    A shallow embedding of [src/handler.py].  The handler is a linear
    pipeline over three external collaborators (the JSON decoder, the
    [pdfkit] renderer and the S3 client).  The collaborators are kept as an
    interface, [Platform]; everything the handler itself does (defaulting,
    key lookups, the transient path, the arguments of the upload, the URL
    and the response) is written out below, statement by statement. *)

From Stdlib Require Import Strings.Byte.
From stdpp Require Import gmap strings list fin_maps pretty.

Set Default Proof Using "Type*".
#[local] Set Warnings "-register-all".

(** ** Python values *)

(** What [json.loads] can return, and what a Lambda event can hold.  A
    float is kept as its IEEE-754 binary64 bit pattern. *)
Inductive value : Type :=
  | VNone
  | VBool (b : bool)
  | VInt (n : Z)
  | VFloat (bits : Z)
  | VStr (s : string)
  | VList (l : list value)
  | VDict (d : gmap string value).

(** The exceptions that can leave the handler.  None of them is caught. *)
Inductive exn : Type :=
  | KeyError (k : string)      (* [data['filename']] on a dict without it *)
  | TypeError                  (* subscripting a non-dict, decoding a non-string *)
  | JSONDecodeError            (* [json.loads] on malformed text *)
  | IOError                    (* pdfkit: binary missing, or the render failed *)
  | FileNotFoundError          (* [open(filepath, 'rb')] *)
  | ParamValidationError       (* boto3: Bucket or Key is not a string *)
  | ClientError.               (* the storage service rejected the upload *)

Inductive result (A : Type) : Type :=
  | Ok (a : A)
  | Err (e : exn).
Arguments Ok {A} a.
Arguments Err {A} e.

(** ** The world the handler acts on *)

(** An object as the bucket holds it. *)
Record s3_object : Type := mk_object {
  obj_body : list byte;
  obj_content_type : string;
  obj_acl : string
}.

(** The keyword arguments of one [client.put_object] call. *)
Record put_request : Type := mk_put {
  ACL : string;
  Body : list byte;
  ContentType : string;
  Bucket : option string;
  Key : value
}.

(** Transient local storage (path to contents), the object store (bucket
    and key to object) and the log of the [put_object] calls made so far. *)
Record world : Type := mk_world {
  files : gmap string (list byte);
  objects : gmap (string * string) s3_object;
  put_calls : list put_request
}.

(** [pdfkit.configuration(...)]. *)
Record configuration : Type := mk_configuration {
  cfg_wkhtmltopdf : string
}.

(** The dict the handler returns. *)
Record response : Type := mk_response {
  headers : gmap string value;
  statusCode : Z;
  body : string
}.

(** ** The collaborators *)

Class Platform : Type := {
  (** [os.environ.get('S3_BUCKET_NAME')], read once when the module is
      loaded: [None] when the variable is not set. *)
  S3_BUCKET_NAME : option string;
  (** [json.loads] on a string: [None] stands for a decoding error. *)
  json_loads : string -> option value;
  (** [str()] of a float, a list or a dict. *)
  py_repr : value -> string;
  (** Whether [pdfkit.configuration] finds the executable at the path. *)
  binary_present : string -> bool;
  (** The bytes the renderer leaves at the output path for the given input,
      [None] when it fails (bad input, unwritable path, full disk...). *)
  wkhtmltopdf :
    configuration -> value -> string -> gmap string (list byte) -> option (list byte);
  (** Whether the storage service accepts a well-typed request (network,
      permissions, existence of the bucket...). *)
  s3_accepts : put_request -> gmap (string * string) s3_object -> bool
}.

(** ** A state and exception monad *)

(** A computation runs in a world and ends with a value or an exception;
    the effects made before an exception stay. *)
Definition M (A : Type) : Type := world -> result A * world.

Definition ret {A} (a : A) : M A := fun w => (Ok a, w).

Definition raise {A} (e : exn) : M A := fun w => (Err e, w).

Definition bind {A B} (m : M A) (k : A -> M B) : M B :=
  fun w =>
    match m w with
    | (Ok a, w') => k a w'
    | (Err e, w') => (Err e, w')
    end.

Definition lift {A} (r : result A) : M A :=
  match r with
  | Ok a => ret a
  | Err e => raise e
  end.

Notation "'let*' x ':=' c1 'in' c2" := (bind c1 (fun x => c2))
  (at level 10, x pattern, c1 at level 100, c2 at level 200).

(** The same for the pure part, which touches no state. *)
Definition rbind {A B} (r : result A) (k : A -> result B) : result B :=
  match r with
  | Ok a => k a
  | Err e => Err e
  end.

Notation "'let?' x ':=' c1 'in' c2" := (rbind c1 (fun x => c2))
  (at level 10, x pattern, c1 at level 100, c2 at level 200).

(** ** The handler *)

Definition default_key : string := "deafult-filename.pdf".

Definition default_html : string :=
  "<html><head></head><body><h1>It works! This is the default PDF.</h1></body></html>".

Definition wkhtmltopdf_path : string := "binary/wkhtmltopdf".

(** [data[k]] for a string [k]. *)
Definition subscript (data : value) (k : string) : result value :=
  match data with
  | VDict d =>
      match d !! k with
      | Some v => Ok v
      | None => Err (KeyError k)
      end
  | _ => Err TypeError
  end.

Section Handler.
Context `{Platform}.

(** [json.loads(v)]: only text is decoded. *)
Definition loads (v : value) : result value :=
  match v with
  | VStr s =>
      match json_loads s with
      | Some data => Ok data
      | None => Err JSONDecodeError
      end
  | _ => Err TypeError
  end.

(** Lines 12-25: the defaults, replaced by the two fields of the decoded
    body when the event has one. *)
Definition resolve_input (event : gmap string value) : result (value * value) :=
  match event !! "body" with
  | Some b =>
      let? data := loads b in
      let? key := subscript data "filename" in
      let? html := subscript data "html" in
      Ok (key, html)
  | None => Ok (VStr default_key, VStr default_html)
  end.

(** What [str.format] substitutes for an argument with an empty format
    specification: a string stands for itself. *)
Definition py_str (v : value) : string :=
  match v with
  | VStr s => s
  | VNone => "None"
  | VBool true => "True"
  | VBool false => "False"
  | VInt n => pretty n
  | _ => py_repr v
  end.

Definition py_str_env (o : option string) : string :=
  match o with
  | Some s => s
  | None => "None"
  end.

(** ['/tmp/{key}'.format(key=key)] *)
Definition tmp_path (key : value) : string := "/tmp/" +:+ py_str key.

(** ["https://{0}.s3.amazonaws.com/{1}".format(S3_BUCKET_NAME, key)] *)
Definition format_url (bucket : option string) (key : value) : string :=
  "https://" +:+ py_str_env bucket +:+ ".s3.amazonaws.com/" +:+ py_str key.

Definition pdfkit_configuration (path : string) : M configuration :=
  if binary_present path then ret (mk_configuration path) else raise IOError.

(** [pdfkit.from_string(html, filepath, configuration=config, options={})]:
    on success the output file holds the rendered bytes. *)
Definition pdfkit_from_string (html : value) (filepath : string)
    (config : configuration) : M unit :=
  fun w =>
    match wkhtmltopdf config html filepath (files w) with
    | Some pdf =>
        (Ok tt, mk_world (<[filepath := pdf]> (files w)) (objects w) (put_calls w))
    | None => (Err IOError, w)
    end.

(** [open(filepath, 'rb')], with the contents the upload will read. *)
Definition open_rb (filepath : string) : M (list byte) :=
  fun w =>
    match files w !! filepath with
    | Some contents => (Ok contents, w)
    | None => (Err FileNotFoundError, w)
    end.

Definition stored (req : put_request) : s3_object :=
  mk_object (Body req) (ContentType req) (ACL req).

(** [client.put_object] with keyword arguments [req]: the call is logged;
    the client checks that Bucket and Key are strings, the service then
    accepts or rejects, and an accepted object replaces whatever the key
    held. *)
Definition put_object (req : put_request) : M unit :=
  fun w =>
    let calls := put_calls w ++ [req] in
    match Bucket req, Key req with
    | Some b, VStr k =>
        if s3_accepts req (objects w)
        then (Ok tt, mk_world (files w) (<[(b, k) := stored req]> (objects w)) calls)
        else (Err ClientError, mk_world (files w) (objects w) calls)
    | _, _ => (Err ParamValidationError, mk_world (files w) (objects w) calls)
    end.

Definition cors_headers : gmap string value :=
  {[ "Access-Control-Allow-Origin" := VStr "*";
     "Access-Control-Allow-Credentials" := VBool true ]}.

Definition upload_request (key : value) (contents : list byte) : put_request :=
  mk_put "public-read" contents "application/pdf" S3_BUCKET_NAME key.

Definition generate_pdf (event : gmap string value) (context : value) : M response :=
  let* (key, html) := lift (resolve_input event) in
  let filepath := tmp_path key in
  let* config := pdfkit_configuration wkhtmltopdf_path in
  let* _ := pdfkit_from_string html filepath config in
  let* contents := open_rb filepath in
  let* r := put_object (upload_request key contents) in
  let object_url := format_url S3_BUCKET_NAME key in
  ret (mk_response cors_headers 200 object_url).

End Handler.

(** ** Test doubles *)

(** A canned decoder, a renderer that wraps the markup in a PDF header and a
    store that owns one bucket: enough to run the handler on examples. *)
Module Fake.

Definition dq : string := String (Ascii.ascii_of_nat 34) EmptyString.

Definition field (k v : string) : string :=
  dq +:+ k +:+ dq +:+ ": " +:+ dq +:+ v +:+ dq.

Definition hi_html : string := "<html><body>Hi</body></html>".
Definition bye_html : string := "<html><body>Bye</body></html>".

Definition report_text (html : string) : string :=
  "{" +:+ field "filename" "report.pdf" +:+ ", " +:+ field "html" html +:+ "}".

Definition no_html_text : string := "{" +:+ field "filename" "report.pdf" +:+ "}".

Definition report_data (html : string) : gmap string value :=
  {[ "filename" := VStr "report.pdf"; "html" := VStr html ]}.

Definition no_html_data : gmap string value :=
  {[ "filename" := VStr "report.pdf" ]}.

Definition decode (s : string) : option value :=
  if String.eqb s (report_text hi_html) then Some (VDict (report_data hi_html))
  else if String.eqb s (report_text bye_html) then Some (VDict (report_data bye_html))
  else if String.eqb s no_html_text then Some (VDict no_html_data)
  else None.

Definition pdf_magic : list byte := [x25; x50; x44; x46; x2d].

Definition render (config : configuration) (html : value) (filepath : string)
    (fs : gmap string (list byte)) : option (list byte) :=
  match html with
  | VStr s => Some (pdf_magic ++ String.list_byte_of_string s)
  | _ => None
  end.

Definition accepts (req : put_request) (store : gmap (string * string) s3_object) : bool :=
  bool_decide (Bucket req = Some "my-bucket").

Definition platform : Platform := {|
  S3_BUCKET_NAME := Some "my-bucket";
  json_loads := decode;
  py_repr := fun _ => "?";
  binary_present := String.eqb wkhtmltopdf_path;
  wkhtmltopdf := render;
  s3_accepts := accepts
|}.

Definition event_of (text : string) : gmap string value := {[ "body" := VStr text ]}.

Definition empty_world : world := mk_world ∅ ∅ [].

Definition pdf_of (html : string) : list byte := pdf_magic ++ String.list_byte_of_string html.

(** The world after one successful call on the empty world. *)
Definition world_after (key html : string) : world :=
  mk_world {[ "/tmp/" +:+ key := pdf_of html ]}
           {[ ("my-bucket", key) := mk_object (pdf_of html) "application/pdf" "public-read" ]}
           [mk_put "public-read" (pdf_of html) "application/pdf" (Some "my-bucket") (VStr key)].

(** The world after a second successful call for the same key. *)
Definition world_after_two (key html1 html2 : string) : world :=
  mk_world {[ "/tmp/" +:+ key := pdf_of html2 ]}
           {[ ("my-bucket", key) := mk_object (pdf_of html2) "application/pdf" "public-read" ]}
           [mk_put "public-read" (pdf_of html1) "application/pdf" (Some "my-bucket") (VStr key);
            mk_put "public-read" (pdf_of html2) "application/pdf" (Some "my-bucket") (VStr key)].

Definition hi_event : gmap string value := event_of (report_text hi_html).
Definition bye_event : gmap string value := event_of (report_text bye_html).
Definition no_html_event : gmap string value := event_of no_html_text.
Definition after_hi : world := world_after "report.pdf" hi_html.
Definition after_bye : world := world_after_two "report.pdf" hi_html bye_html.
Definition after_default : world := world_after default_key default_html.

Definition report_response : response :=
  mk_response
    {[ "Access-Control-Allow-Origin" := VStr "*";
       "Access-Control-Allow-Credentials" := VBool true ]}
    200 "https://my-bucket.s3.amazonaws.com/report.pdf".

Definition default_response : response :=
  mk_response
    {[ "Access-Control-Allow-Origin" := VStr "*";
       "Access-Control-Allow-Credentials" := VBool true ]}
    200 "https://my-bucket.s3.amazonaws.com/deafult-filename.pdf".

End Fake.

(** The scenarios of the specification, run against the doubles. *)
Example run_report :
  @generate_pdf Fake.platform (Fake.event_of (Fake.report_text Fake.hi_html)) VNone
    Fake.empty_world
  = (Ok Fake.report_response, Fake.world_after "report.pdf" Fake.hi_html).
Proof. vm_compute. reflexivity. Qed.

Example run_default :
  @generate_pdf Fake.platform ∅ VNone Fake.empty_world
  = (Ok Fake.default_response, Fake.world_after default_key default_html).
Proof. vm_compute. reflexivity. Qed.

Example run_malformed :
  @generate_pdf Fake.platform (Fake.event_of "{") VNone Fake.empty_world
  = (Err JSONDecodeError, Fake.empty_world).
Proof. vm_compute. reflexivity. Qed.

Example run_no_html :
  @generate_pdf Fake.platform (Fake.event_of Fake.no_html_text) VNone Fake.empty_world
  = (Err (KeyError "html"), Fake.empty_world).
Proof. vm_compute. reflexivity. Qed.

(** ** Properties of the handler *)

Section Properties.
Context `{Platform}.

Implicit Types (event : gmap string value) (context key html : value).
Implicit Types (w : world) (r : response) (e : exn).

(** The world a successful call leaves: the rendered file in transient
    storage, the object in the bucket, one more logged upload. *)
Definition success_world (w : world) (bucket k : string) (pdf : list byte) : world :=
  mk_world (<[ "/tmp/" +:+ k := pdf ]> (files w))
           (<[ (bucket, k) := mk_object pdf "application/pdf" "public-read" ]> (objects w))
           (put_calls w ++ [upload_request (VStr k) pdf]).

(** The response of a successful call. *)
Definition success_response (bucket k : string) : response :=
  mk_response cors_headers 200 ("https://" +:+ bucket +:+ ".s3.amazonaws.com/" +:+ k).

(** Every step of the pipeline went through. *)
Definition all_steps_succeed event w (bucket k : string) (pdf : list byte) : Prop :=
  ∃ html,
    resolve_input event = Ok (VStr k, html) ∧
    binary_present wkhtmltopdf_path = true ∧
    wkhtmltopdf (mk_configuration wkhtmltopdf_path) html ("/tmp/" +:+ k) (files w)
      = Some pdf ∧
    S3_BUCKET_NAME = Some bucket ∧
    s3_accepts (upload_request (VStr k) pdf) (objects w) = true.

(** Some step of the pipeline raises [e]. *)
Inductive step_fails event w : exn → Prop :=
  | input_fails e :
      resolve_input event = Err e →
      step_fails event w e
  | configuration_fails key html :
      resolve_input event = Ok (key, html) →
      binary_present wkhtmltopdf_path = false →
      step_fails event w IOError
  | render_fails key html :
      resolve_input event = Ok (key, html) →
      binary_present wkhtmltopdf_path = true →
      wkhtmltopdf (mk_configuration wkhtmltopdf_path) html (tmp_path key) (files w)
        = None →
      step_fails event w IOError
  | upload_fails key html pdf e w' :
      resolve_input event = Ok (key, html) →
      binary_present wkhtmltopdf_path = true →
      wkhtmltopdf (mk_configuration wkhtmltopdf_path) html (tmp_path key) (files w)
        = Some pdf →
      put_object (upload_request key pdf)
        (mk_world (<[ tmp_path key := pdf ]> (files w)) (objects w) (put_calls w))
        = (Err e, w') →
      step_fails event w e.

Lemma resolve_input_no_body event :
  event !! "body" = None →
  resolve_input event = Ok (VStr default_key, VStr default_html).
Proof. intros Hb. unfold resolve_input. by rewrite Hb. Qed.

Lemma resolve_input_fields event s d key html :
  event !! "body" = Some (VStr s) →
  json_loads s = Some (VDict d) →
  d !! "filename" = Some key →
  d !! "html" = Some html →
  resolve_input event = Ok (key, html).
Proof.
  intros Hb Hs Hk Hh. unfold resolve_input. rewrite Hb. simpl.
  rewrite Hs. simpl. rewrite Hk. simpl. by rewrite Hh.
Qed.

Lemma resolve_input_malformed event s :
  event !! "body" = Some (VStr s) →
  json_loads s = None →
  resolve_input event = Err JSONDecodeError.
Proof. intros Hb Hs. unfold resolve_input. rewrite Hb. simpl. by rewrite Hs. Qed.

Lemma resolve_input_missing event s d :
  event !! "body" = Some (VStr s) →
  json_loads s = Some (VDict d) →
  d !! "filename" = None ∨ d !! "html" = None →
  ∃ k, (k = "filename" ∨ k = "html") ∧ d !! k = None ∧
       resolve_input event = Err (KeyError k).
Proof.
  intros Hb Hs Hmiss. unfold resolve_input. rewrite Hb. simpl. rewrite Hs. simpl.
  destruct (d !! "filename") as [key|] eqn:Hk; simpl.
  - destruct Hmiss as [?|Hh]; [done|]. exists "html". rewrite Hh. auto.
  - exists "filename". auto.
Qed.

(** The handler, one collaborator at a time. *)
Lemma generate_pdf_input_error event context w e :
  resolve_input event = Err e →
  generate_pdf event context w = (Err e, w).
Proof. intros Hr. unfold generate_pdf, bind. by rewrite Hr. Qed.

Lemma generate_pdf_no_binary event context w key html :
  resolve_input event = Ok (key, html) →
  binary_present wkhtmltopdf_path = false →
  generate_pdf event context w = (Err IOError, w).
Proof.
  intros Hr Hb. unfold generate_pdf, bind, pdfkit_configuration.
  rewrite Hr. simpl. by rewrite Hb.
Qed.

Lemma generate_pdf_render_error event context w key html :
  resolve_input event = Ok (key, html) →
  binary_present wkhtmltopdf_path = true →
  wkhtmltopdf (mk_configuration wkhtmltopdf_path) html (tmp_path key) (files w) = None →
  generate_pdf event context w = (Err IOError, w).
Proof.
  intros Hr Hb Hw. unfold generate_pdf, bind, pdfkit_configuration, pdfkit_from_string.
  rewrite Hr. simpl. rewrite Hb. simpl. by rewrite Hw.
Qed.

(** Once the file is rendered, what is left is the upload and, if that
    returns, the response. *)
Lemma generate_pdf_rendered event context w key html pdf :
  resolve_input event = Ok (key, html) →
  binary_present wkhtmltopdf_path = true →
  wkhtmltopdf (mk_configuration wkhtmltopdf_path) html (tmp_path key) (files w)
    = Some pdf →
  generate_pdf event context w =
    match put_object (upload_request key pdf)
            (mk_world (<[ tmp_path key := pdf ]> (files w)) (objects w) (put_calls w)) with
    | (Ok _, w') => (Ok (mk_response cors_headers 200 (format_url S3_BUCKET_NAME key)), w')
    | (Err e, w') => (Err e, w')
    end.
Proof.
  intros Hr Hb Hw.
  unfold generate_pdf, bind, pdfkit_configuration, pdfkit_from_string, open_rb.
  rewrite Hr. simpl. rewrite Hb. simpl. rewrite Hw. simpl.
  rewrite lookup_insert_eq.
  by destruct (put_object _ _) as [[[]|e] w'].
Qed.

Lemma put_object_Ok req w u w' :
  put_object req w = (Ok u, w') →
  ∃ bucket k,
    Bucket req = Some bucket ∧ Key req = VStr k ∧
    s3_accepts req (objects w) = true ∧
    w' = mk_world (files w) (<[ (bucket, k) := stored req ]> (objects w))
           (put_calls w ++ [req]).
Proof.
  unfold put_object. intros Hp.
  destruct (Bucket req) as [bucket|]; [|by destruct (Key req)].
  destruct (Key req) as [| | | |k| |]; try done.
  destruct (s3_accepts req (objects w)) eqn:Ha; [|done].
  injection Hp as _ <-. by exists bucket, k.
Qed.

(** A call returns a response exactly when every step went through, and
    then the response and the final world are determined. *)
Lemma generate_pdf_Ok_inv event context w r w' :
  generate_pdf event context w = (Ok r, w') →
  ∃ bucket k pdf,
    all_steps_succeed event w bucket k pdf ∧
    r = success_response bucket k ∧
    w' = success_world w bucket k pdf.
Proof.
  intros Hg.
  destruct (resolve_input event) as [[key html]|e] eqn:Hr;
    [|by rewrite (generate_pdf_input_error _ _ _ _ Hr) in Hg].
  destruct (binary_present wkhtmltopdf_path) eqn:Hb;
    [|by rewrite (generate_pdf_no_binary _ _ _ _ _ Hr Hb) in Hg].
  destruct (wkhtmltopdf (mk_configuration wkhtmltopdf_path) html (tmp_path key) (files w))
    as [pdf|] eqn:Hw;
    [|by rewrite (generate_pdf_render_error _ _ _ _ _ Hr Hb Hw) in Hg].
  rewrite (generate_pdf_rendered _ _ _ _ _ _ Hr Hb Hw) in Hg.
  destruct (put_object _ _) as [[u|e] w1] eqn:Hp; [|done].
  apply put_object_Ok in Hp as (bucket & k & Hbucket & Hkey & Ha & ->).
  simpl in Hbucket, Hkey, Ha. subst key. injection Hg as <- <-.
  exists bucket, k, pdf. split; [|split].
  - exists html. by rewrite Hbucket in *.
  - unfold success_response, format_url. by rewrite Hbucket.
  - done.
Qed.

Lemma generate_pdf_Ok_intro event context w bucket k pdf :
  all_steps_succeed event w bucket k pdf →
  generate_pdf event context w
    = (Ok (success_response bucket k), success_world w bucket k pdf).
Proof.
  intros (html & Hr & Hb & Hw & Hbucket & Ha).
  rewrite (generate_pdf_rendered _ _ _ _ _ _ Hr Hb Hw).
  unfold put_object, format_url. simpl. rewrite Hbucket. by rewrite Ha.
Qed.

Lemma step_fails_raises event context w e :
  step_fails event w e → ∃ w', generate_pdf event context w = (Err e, w').
Proof.
  intros [e' Hr|key html Hr Hb|key html Hr Hb Hw|key html pdf e' w' Hr Hb Hw Hp].
  - exists w. by apply generate_pdf_input_error.
  - exists w. by eapply generate_pdf_no_binary.
  - exists w. by eapply generate_pdf_render_error.
  - exists w'. rewrite (generate_pdf_rendered _ _ _ _ _ _ Hr Hb Hw). by rewrite Hp.
Qed.

Lemma generate_pdf_Err_inv event context w e w' :
  generate_pdf event context w = (Err e, w') → step_fails event w e.
Proof.
  intros Hg.
  destruct (resolve_input event) as [[key html]|e0] eqn:Hr.
  2:{ rewrite (generate_pdf_input_error _ _ _ _ Hr) in Hg.
      injection Hg as <- _. by constructor. }
  destruct (binary_present wkhtmltopdf_path) eqn:Hb.
  2:{ rewrite (generate_pdf_no_binary _ _ _ _ _ Hr Hb) in Hg.
      injection Hg as <- _. by eapply configuration_fails. }
  destruct (wkhtmltopdf (mk_configuration wkhtmltopdf_path) html (tmp_path key) (files w))
    as [pdf|] eqn:Hw.
  2:{ rewrite (generate_pdf_render_error _ _ _ _ _ Hr Hb Hw) in Hg.
      injection Hg as <- _. by eapply render_fails. }
  rewrite (generate_pdf_rendered _ _ _ _ _ _ Hr Hb Hw) in Hg.
  destruct (put_object _ _) as [[u|e1] w1] eqn:Hp; [done|].
  injection Hg as <- <-. by eapply upload_fails.
Qed.

End Properties.


(** ** What the specification promises *)

Section Claims.
Context `{Platform}.

Implicit Types (event : gmap string value) (context : value).
Implicit Types (w : world) (r : response) (e : exn).

(** The event carries a body that decodes to an object whose [filename] and
    [html] fields are the given strings. *)
Definition valid_request event (filename html : string) : Prop :=
  ∃ s d,
    event !! "body" = Some (VStr s) ∧
    json_loads s = Some (VDict d) ∧
    d !! "filename" = Some (VStr filename) ∧
    d !! "html" = Some (VStr html).

Lemma valid_request_resolves event filename html :
  valid_request event filename html →
  resolve_input event = Ok (VStr filename, VStr html).
Proof. intros (s & d & Hb & Hs & Hk & Hh). by eapply resolve_input_fields. Qed.

Lemma put_object_files req w res w' :
  put_object req w = (res, w') → files w' = files w.
Proof.
  unfold put_object. intros Hp.
  destruct (Bucket req); [|by destruct (Key req); injection Hp as _ <-].
  destruct (Key req); try by injection Hp as _ <-.
  by destruct (s3_accepts _ _); injection Hp as _ <-.
Qed.

(** C1: for an event whose body is a JSON object with string fields
    [filename] and [html], a successful call returns as body exactly
    ["https://{BUCKET}.s3.amazonaws.com/{filename}"], where [BUCKET] is the
    bucket name the process read from its environment. *)
Theorem body_is_public_url event context w r w' filename html :
  valid_request event filename html →
  generate_pdf event context w = (Ok r, w') →
  ∃ BUCKET,
    S3_BUCKET_NAME = Some BUCKET ∧
    body r = "https://" +:+ BUCKET +:+ ".s3.amazonaws.com/" +:+ filename.
Proof.
  intros Hv Hg. apply valid_request_resolves in Hv.
  apply generate_pdf_Ok_inv in Hg as (bucket & k & pdf & Hall & -> & _).
  destruct Hall as (html' & Hr & _ & _ & Hbucket & _).
  rewrite Hv in Hr. injection Hr as <- _. by exists bucket.
Qed.

(** C2: an event without a ['body'] field resolves to the default key
    ["deafult-filename.pdf"] and the placeholder markup; the call returns
    exactly when the collaborators succeed on these two, and then the bucket
    holds the rendering of the placeholder under the default key and the
    returned body is the public URL of that key. *)
Theorem no_body_uses_defaults event context w :
  event !! "body" = None →
  resolve_input event
    = Ok (VStr "deafult-filename.pdf",
          VStr "<html><head></head><body><h1>It works! This is the default PDF.</h1></body></html>") ∧
  (∀ bucket pdf,
     all_steps_succeed event w bucket "deafult-filename.pdf" pdf →
     generate_pdf event context w
       = (Ok (success_response bucket "deafult-filename.pdf"),
          success_world w bucket "deafult-filename.pdf" pdf)) ∧
  (∀ r w',
     generate_pdf event context w = (Ok r, w') →
     ∃ bucket pdf,
       S3_BUCKET_NAME = Some bucket ∧
       wkhtmltopdf (mk_configuration wkhtmltopdf_path) (VStr default_html)
         "/tmp/deafult-filename.pdf" (files w) = Some pdf ∧
       files w' !! "/tmp/deafult-filename.pdf" = Some pdf ∧
       objects w' !! (bucket, "deafult-filename.pdf")
         = Some (mk_object pdf "application/pdf" "public-read") ∧
       body r = "https://" +:+ bucket +:+ ".s3.amazonaws.com/deafult-filename.pdf").
Proof.
  intros Hb. pose proof (resolve_input_no_body _ Hb) as Hd.
  split; [exact Hd|]. split.
  - intros bucket pdf. apply generate_pdf_Ok_intro.
  - intros r w' Hg.
    apply generate_pdf_Ok_inv in Hg as (bucket & k & pdf & Hall & -> & ->).
    destruct Hall as (html & Hr & _ & Hw & Hbucket & _).
    rewrite Hd in Hr. injection Hr as <- <-.
    exists bucket, pdf. split; [done|]. split; [exact Hw|].
    unfold success_world; simpl. by rewrite !lookup_insert_eq.
Qed.

(** C3: when the body decodes to an object without ['filename'] or without
    ['html'], the call raises [KeyError] for the first missing key and leaves
    the world as it was: no upload is attempted and the bucket is unchanged,
    in particular under the default key. *)
Theorem missing_field_fails_before_upload event context w s d :
  event !! "body" = Some (VStr s) →
  json_loads s = Some (VDict d) →
  d !! "filename" = None ∨ d !! "html" = None →
  ∃ k w',
    (k = "filename" ∨ k = "html") ∧ d !! k = None ∧
    generate_pdf event context w = (Err (KeyError k), w') ∧
    put_calls w' = put_calls w ∧
    objects w' = objects w ∧
    (∀ bucket, objects w' !! (bucket, default_key) = objects w !! (bucket, default_key)).
Proof.
  intros Hb Hs Hmiss.
  destruct (resolve_input_missing _ _ _ Hb Hs Hmiss) as (k & Hk & Hnone & Hr).
  exists k, w. by rewrite (generate_pdf_input_error _ context w _ Hr).
Qed.

(** C4: a failing step (malformed JSON, a missing key, the renderer, the
    upload) makes the call raise that step's exception, with no response; a
    response is returned only when every step succeeded, and it is then the
    status-200 response: there is no error body. *)
Theorem failure_is_uncaught event context w :
  (∀ e, step_fails event w e →
     ∃ w', generate_pdf event context w = (Err e, w')) ∧
  (∀ e w', generate_pdf event context w = (Err e, w') → step_fails event w e) ∧
  (∀ r w', generate_pdf event context w = (Ok r, w') →
     (∀ e, ¬ step_fails event w e) ∧
     ∃ bucket k pdf,
       all_steps_succeed event w bucket k pdf ∧
       r = success_response bucket k ∧ statusCode r = 200%Z) ∧
  (∀ s, event !! "body" = Some (VStr s) → json_loads s = None →
     step_fails event w JSONDecodeError) ∧
  (∀ s d, event !! "body" = Some (VStr s) → json_loads s = Some (VDict d) →
     d !! "filename" = None ∨ d !! "html" = None →
     ∃ k, step_fails event w (KeyError k)).
Proof.
  split; [|split; [|split; [|split]]].
  - intros e. apply step_fails_raises.
  - intros e w'. apply generate_pdf_Err_inv.
  - intros r w' Hg. split.
    + intros e Hf. apply (step_fails_raises _ context) in Hf as [w'' Hf]. congruence.
    + apply generate_pdf_Ok_inv in Hg as (bucket & k & pdf & Hall & -> & _).
      by exists bucket, k, pdf.
  - intros s Hb Hs. constructor. by eapply resolve_input_malformed.
  - intros s d Hb Hs Hmiss.
    destruct (resolve_input_missing _ _ _ Hb Hs Hmiss) as (k & _ & _ & Hr).
    exists k. by constructor.
Qed.

(** C5: a successful call makes exactly one upload call, and that call passes
    content type ["application/pdf"], whatever the event holds; the object it
    stores carries that content type. *)
Theorem upload_content_type event context w r w' :
  generate_pdf event context w = (Ok r, w') →
  ∃ req bucket k,
    put_calls w' = put_calls w ++ [req] ∧
    ContentType req = "application/pdf" ∧
    Bucket req = Some bucket ∧ Key req = VStr k ∧
    obj_content_type <$> objects w' !! (bucket, k) = Some "application/pdf".
Proof.
  intros Hg. apply generate_pdf_Ok_inv in Hg as (bucket & k & pdf & Hall & _ & ->).
  destruct Hall as (_ & _ & _ & _ & Hbucket & _).
  exists (upload_request (VStr k) pdf), bucket, k. simpl.
  by rewrite lookup_insert_eq.
Qed.

(** C6: the upload call of a successful call asks for the access control
    ["public-read"], and the object it stores is public-read. *)
Theorem upload_is_public_read event context w r w' :
  generate_pdf event context w = (Ok r, w') →
  ∃ req bucket k,
    put_calls w' = put_calls w ++ [req] ∧
    ACL req = "public-read" ∧
    Bucket req = Some bucket ∧ Key req = VStr k ∧
    obj_acl <$> objects w' !! (bucket, k) = Some "public-read".
Proof.
  intros Hg. apply generate_pdf_Ok_inv in Hg as (bucket & k & pdf & Hall & _ & ->).
  destruct Hall as (_ & _ & _ & _ & Hbucket & _).
  exists (upload_request (VStr k) pdf), bucket, k. simpl.
  by rewrite lookup_insert_eq.
Qed.

(** C7: two successive successful calls with the same filename return the
    same URL, and the bucket then holds, under that key, what the second call
    rendered; what the first call had stored there is replaced. *)
Theorem last_writer_wins event1 event2 context1 context2 filename html1 html2
    w0 r1 w1 r2 w2 :
  valid_request event1 filename html1 →
  valid_request event2 filename html2 →
  generate_pdf event1 context1 w0 = (Ok r1, w1) →
  generate_pdf event2 context2 w1 = (Ok r2, w2) →
  body r1 = body r2 ∧
  ∃ bucket pdf1 pdf2,
    S3_BUCKET_NAME = Some bucket ∧
    wkhtmltopdf (mk_configuration wkhtmltopdf_path) (VStr html1)
      ("/tmp/" +:+ filename) (files w0) = Some pdf1 ∧
    wkhtmltopdf (mk_configuration wkhtmltopdf_path) (VStr html2)
      ("/tmp/" +:+ filename) (files w1) = Some pdf2 ∧
    obj_body <$> objects w1 !! (bucket, filename) = Some pdf1 ∧
    obj_body <$> objects w2 !! (bucket, filename) = Some pdf2.
Proof.
  intros Hv1 Hv2 Hg1 Hg2.
  apply valid_request_resolves in Hv1, Hv2.
  apply generate_pdf_Ok_inv in Hg1 as (b1 & k1 & pdf1 & Hall1 & -> & ->).
  apply generate_pdf_Ok_inv in Hg2 as (b2 & k2 & pdf2 & Hall2 & -> & ->).
  destruct Hall1 as (h1 & Hr1 & _ & Hw1 & Hb1 & _).
  destruct Hall2 as (h2 & Hr2 & _ & Hw2 & Hb2 & _).
  rewrite Hv1 in Hr1. injection Hr1 as <- <-.
  rewrite Hv2 in Hr2. injection Hr2 as <- <-.
  rewrite Hb1 in Hb2. injection Hb2 as <-.
  split; [done|].
  exists b1, pdf1, pdf2. split; [done|]. split; [exact Hw1|]. split; [exact Hw2|].
  unfold success_world; simpl. by rewrite !lookup_insert_eq.
Qed.

(** C8: the response of a successful call has status code 200, exactly the
    two CORS headers, and as body the public URL of the object the call
    stored. *)
Theorem success_response_shape event context w r w' :
  generate_pdf event context w = (Ok r, w') →
  statusCode r = 200%Z ∧
  headers r = {[ "Access-Control-Allow-Origin" := VStr "*";
                 "Access-Control-Allow-Credentials" := VBool true ]} ∧
  dom (headers r)
    = ({[ "Access-Control-Allow-Origin"; "Access-Control-Allow-Credentials" ]}
        : gset string) ∧
  ∃ bucket k html,
    S3_BUCKET_NAME = Some bucket ∧
    resolve_input event = Ok (VStr k, html) ∧
    is_Some (objects w' !! (bucket, k)) ∧
    body r = "https://" +:+ bucket +:+ ".s3.amazonaws.com/" +:+ k.
Proof.
  intros Hg. apply generate_pdf_Ok_inv in Hg as (bucket & k & pdf & Hall & -> & ->).
  destruct Hall as (html & Hr & _ & _ & Hbucket & _).
  split; [done|]. split; [done|]. split.
  - simpl. unfold cors_headers. rewrite dom_insert_L, dom_singleton_L. set_solver.
  - exists bucket, k, html. repeat split; try done.
    unfold success_world; simpl. rewrite lookup_insert_eq. by eexists.
Qed.

(** C9: the handler never removes a file from transient storage; once the
    renderer has produced the document, the file ["/tmp/{key}"], with the
    requested name substituted as it came, holds it when the call ends,
    whether the upload then succeeds or not; in particular after every call
    that returns. *)
Theorem rendered_file_is_kept event context w res w' :
  generate_pdf event context w = (res, w') →
  dom (files w) ⊆ dom (files w') ∧
  (∀ key html pdf,
     resolve_input event = Ok (key, html) →
     binary_present wkhtmltopdf_path = true →
     wkhtmltopdf (mk_configuration wkhtmltopdf_path) html ("/tmp/" +:+ py_str key) (files w)
       = Some pdf →
     files w' !! ("/tmp/" +:+ py_str key) = Some pdf) ∧
  (∀ r, res = Ok r →
     ∃ k html pdf,
       resolve_input event = Ok (VStr k, html) ∧
       wkhtmltopdf (mk_configuration wkhtmltopdf_path) html ("/tmp/" +:+ k) (files w)
         = Some pdf ∧
       files w' !! ("/tmp/" +:+ k) = Some pdf).
Proof.
  intros Hg.
  assert (Hkeep : ∀ key html pdf,
     resolve_input event = Ok (key, html) →
     binary_present wkhtmltopdf_path = true →
     wkhtmltopdf (mk_configuration wkhtmltopdf_path) html (tmp_path key) (files w)
       = Some pdf →
     files w' = <[ tmp_path key := pdf ]> (files w)).
  { intros key html pdf Hr Hb Hw.
    rewrite (generate_pdf_rendered _ _ _ _ _ _ Hr Hb Hw) in Hg.
    destruct (put_object _ _) as [[u|e] w1] eqn:Hp;
      apply put_object_files in Hp; simpl in Hp; injection Hg as _ <-; done. }
  split; [|split].
  - destruct (resolve_input event) as [[key html]|e] eqn:Hr;
      [|by rewrite (generate_pdf_input_error _ _ _ _ Hr) in Hg; injection Hg as _ <-].
    destruct (binary_present wkhtmltopdf_path) eqn:Hb;
      [|by rewrite (generate_pdf_no_binary _ _ _ _ _ Hr Hb) in Hg; injection Hg as _ <-].
    destruct (wkhtmltopdf (mk_configuration wkhtmltopdf_path) html (tmp_path key) (files w))
      as [pdf|] eqn:Hw;
      [|by rewrite (generate_pdf_render_error _ _ _ _ _ Hr Hb Hw) in Hg;
           injection Hg as _ <-].
    rewrite (Hkeep _ _ _ eq_refl eq_refl Hw), dom_insert_L. set_solver.
  - intros key html pdf Hr Hb Hw.
    rewrite (Hkeep _ _ _ Hr Hb Hw). apply lookup_insert_eq.
  - intros r ->.
    apply generate_pdf_Ok_inv in Hg as (bucket & k & pdf & Hall & _ & ->).
    destruct Hall as (html & Hr & _ & Hw & _).
    exists k, html, pdf. split; [done|]. split; [done|]. apply lookup_insert_eq.
Qed.

(** C10: under one bucket configuration, two successful calls whose events
    name the same file return equal responses (status code, headers and
    body), whatever their markup and whatever the worlds they ran in. *)
Theorem response_ignores_html event1 event2 context1 context2 filename html1 html2
    w1 w1' w2 w2' r1 r2 :
  valid_request event1 filename html1 →
  valid_request event2 filename html2 →
  generate_pdf event1 context1 w1 = (Ok r1, w1') →
  generate_pdf event2 context2 w2 = (Ok r2, w2') →
  r1 = r2 ∧
  statusCode r1 = statusCode r2 ∧ headers r1 = headers r2 ∧ body r1 = body r2.
Proof.
  intros Hv1 Hv2 Hg1 Hg2.
  apply valid_request_resolves in Hv1, Hv2.
  apply generate_pdf_Ok_inv in Hg1 as (b1 & k1 & pdf1 & Hall1 & -> & _).
  apply generate_pdf_Ok_inv in Hg2 as (b2 & k2 & pdf2 & Hall2 & -> & _).
  destruct Hall1 as (h1 & Hr1 & _ & _ & Hb1 & _).
  destruct Hall2 as (h2 & Hr2 & _ & _ & Hb2 & _).
  rewrite Hv1 in Hr1. injection Hr1 as <- _.
  rewrite Hv2 in Hr2. injection Hr2 as <- _.
  rewrite Hb1 in Hb2. by injection Hb2 as <-.
Qed.

End Claims.

(** ** The properties on the running examples *)

Lemma body_is_public_url_witness :
  ∃ BUCKET,
    @S3_BUCKET_NAME Fake.platform = Some BUCKET ∧
    body Fake.report_response
      = "https://" +:+ BUCKET +:+ ".s3.amazonaws.com/" +:+ "report.pdf".
Proof.
  apply (@body_is_public_url Fake.platform Fake.hi_event VNone Fake.empty_world
           Fake.report_response Fake.after_hi "report.pdf" Fake.hi_html).
  - exists (Fake.report_text Fake.hi_html), (Fake.report_data Fake.hi_html).
    repeat split; vm_compute; reflexivity.
  - vm_compute; reflexivity.
Defined.

Lemma no_body_uses_defaults_witness :
  (∅ : gmap string value) !! "body" = None ∧
  @generate_pdf Fake.platform ∅ VNone Fake.empty_world = (Ok Fake.default_response, Fake.after_default) ∧
  ∃ bucket pdf,
    @S3_BUCKET_NAME Fake.platform = Some bucket ∧
    files Fake.after_default !! "/tmp/deafult-filename.pdf" = Some pdf ∧
    objects Fake.after_default !! (bucket, "deafult-filename.pdf")
      = Some (mk_object pdf "application/pdf" "public-read") ∧
    body Fake.default_response
      = "https://" +:+ bucket +:+ ".s3.amazonaws.com/deafult-filename.pdf".
Proof.
  assert (Hnone : (∅ : gmap string value) !! "body" = None) by reflexivity.
  assert (Hrun : @generate_pdf Fake.platform ∅ VNone Fake.empty_world
                 = (Ok Fake.default_response, Fake.after_default)) by (vm_compute; reflexivity).
  destruct (@no_body_uses_defaults Fake.platform ∅ VNone Fake.empty_world Hnone)
    as (_ & _ & Hret).
  destruct (Hret _ _ Hrun) as (bucket & pdf & Hb & _ & Hf & Ho & Hbody).
  split; [exact Hnone|]. split; [exact Hrun|].
  exists bucket, pdf. repeat split; assumption.
Defined.

Lemma missing_field_fails_before_upload_witness :
  ∃ k w',
    (k = "filename" ∨ k = "html") ∧ Fake.no_html_data !! k = None ∧
    @generate_pdf Fake.platform Fake.no_html_event VNone Fake.after_hi = (Err (KeyError k), w') ∧
    put_calls w' = put_calls Fake.after_hi ∧
    objects w' = objects Fake.after_hi ∧
    (∀ bucket, objects w' !! (bucket, default_key) = objects Fake.after_hi !! (bucket, default_key)).
Proof.
  apply (@missing_field_fails_before_upload Fake.platform Fake.no_html_event VNone Fake.after_hi
           Fake.no_html_text Fake.no_html_data).
  - vm_compute; reflexivity.
  - vm_compute; reflexivity.
  - right. vm_compute; reflexivity.
Defined.

Lemma failure_is_uncaught_witness :
  ∃ w', @generate_pdf Fake.platform (Fake.event_of "{") VNone Fake.empty_world
          = (Err JSONDecodeError, w').
Proof.
  destruct (@failure_is_uncaught Fake.platform (Fake.event_of "{") VNone Fake.empty_world)
    as (Hraise & _ & _ & Hjson & _).
  apply Hraise. apply (Hjson "{"); vm_compute; reflexivity.
Defined.

Lemma upload_content_type_witness :
  ∃ req bucket k,
    put_calls Fake.after_hi = put_calls Fake.empty_world ++ [req] ∧
    ContentType req = "application/pdf" ∧
    Bucket req = Some bucket ∧ Key req = VStr k ∧
    obj_content_type <$> objects Fake.after_hi !! (bucket, k) = Some "application/pdf".
Proof.
  apply (@upload_content_type Fake.platform Fake.hi_event VNone Fake.empty_world
           Fake.report_response Fake.after_hi).
  vm_compute; reflexivity.
Defined.

Lemma upload_is_public_read_witness :
  ∃ req bucket k,
    put_calls Fake.after_hi = put_calls Fake.empty_world ++ [req] ∧
    ACL req = "public-read" ∧
    Bucket req = Some bucket ∧ Key req = VStr k ∧
    obj_acl <$> objects Fake.after_hi !! (bucket, k) = Some "public-read".
Proof.
  apply (@upload_is_public_read Fake.platform Fake.hi_event VNone Fake.empty_world
           Fake.report_response Fake.after_hi).
  vm_compute; reflexivity.
Defined.

Lemma last_writer_wins_witness :
  body Fake.report_response = body Fake.report_response ∧
  ∃ bucket pdf1 pdf2,
    @S3_BUCKET_NAME Fake.platform = Some bucket ∧
    Fake.render (mk_configuration wkhtmltopdf_path) (VStr Fake.hi_html)
      ("/tmp/" +:+ "report.pdf") (files Fake.empty_world) = Some pdf1 ∧
    Fake.render (mk_configuration wkhtmltopdf_path) (VStr Fake.bye_html)
      ("/tmp/" +:+ "report.pdf") (files Fake.after_hi) = Some pdf2 ∧
    obj_body <$> objects Fake.after_hi !! (bucket, "report.pdf") = Some pdf1 ∧
    obj_body <$> objects Fake.after_bye !! (bucket, "report.pdf") = Some pdf2.
Proof.
  apply (@last_writer_wins Fake.platform Fake.hi_event Fake.bye_event VNone VNone "report.pdf"
           Fake.hi_html Fake.bye_html Fake.empty_world Fake.report_response Fake.after_hi
           Fake.report_response Fake.after_bye).
  - exists (Fake.report_text Fake.hi_html), (Fake.report_data Fake.hi_html).
    repeat split; vm_compute; reflexivity.
  - exists (Fake.report_text Fake.bye_html), (Fake.report_data Fake.bye_html).
    repeat split; vm_compute; reflexivity.
  - vm_compute; reflexivity.
  - vm_compute; reflexivity.
Defined.

Lemma success_response_shape_witness :
  statusCode Fake.report_response = 200%Z ∧
  headers Fake.report_response
    = {[ "Access-Control-Allow-Origin" := VStr "*";
         "Access-Control-Allow-Credentials" := VBool true ]} ∧
  dom (headers Fake.report_response)
    = ({[ "Access-Control-Allow-Origin"; "Access-Control-Allow-Credentials" ]}
        : gset string) ∧
  ∃ bucket k html,
    @S3_BUCKET_NAME Fake.platform = Some bucket ∧
    @resolve_input Fake.platform Fake.hi_event = Ok (VStr k, html) ∧
    is_Some (objects Fake.after_hi !! (bucket, k)) ∧
    body Fake.report_response = "https://" +:+ bucket +:+ ".s3.amazonaws.com/" +:+ k.
Proof.
  apply (@success_response_shape Fake.platform Fake.hi_event VNone Fake.empty_world
           Fake.report_response Fake.after_hi).
  vm_compute; reflexivity.
Defined.

Lemma rendered_file_is_kept_witness :
  dom (files Fake.empty_world) ⊆ dom (files Fake.after_hi) ∧
  files Fake.after_hi !! "/tmp/report.pdf" = Some (Fake.pdf_of Fake.hi_html).
Proof.
  destruct (@rendered_file_is_kept Fake.platform Fake.hi_event VNone Fake.empty_world
              (Ok Fake.report_response) Fake.after_hi) as (Hdom & Hkeep & _).
  - vm_compute; reflexivity.
  - split; [exact Hdom|].
    apply (Hkeep (VStr "report.pdf") (VStr Fake.hi_html)); vm_compute; reflexivity.
Defined.

Lemma response_ignores_html_witness :
  Fake.report_response = Fake.report_response ∧
  statusCode Fake.report_response = statusCode Fake.report_response ∧
  headers Fake.report_response = headers Fake.report_response ∧
  body Fake.report_response = body Fake.report_response.
Proof.
  apply (@response_ignores_html Fake.platform Fake.hi_event Fake.bye_event VNone VNone "report.pdf"
           Fake.hi_html Fake.bye_html Fake.empty_world Fake.after_hi Fake.empty_world
           (Fake.world_after "report.pdf" Fake.bye_html)
           Fake.report_response Fake.report_response).
  - exists (Fake.report_text Fake.hi_html), (Fake.report_data Fake.hi_html).
    repeat split; vm_compute; reflexivity.
  - exists (Fake.report_text Fake.bye_html), (Fake.report_data Fake.bye_html).
    repeat split; vm_compute; reflexivity.
  - vm_compute; reflexivity.
  - vm_compute; reflexivity.
Defined.


(** ** Edge behaviour of the handler *)

(** Doubles for the inputs the handler does not expect: bodies that decode
    to something else than the two-field object, a second file name, and a
    process started without the bucket variable. *)
Module Edge.

Definition list_text : string := "[]".
Definition empty_object_text : string := "{}".

Definition numbered_text : string :=
  "{" +:+ Fake.dq +:+ "filename" +:+ Fake.dq +:+ ": 5, "
      +:+ Fake.field "html" Fake.hi_html +:+ "}".

Definition titled_text : string :=
  "{" +:+ Fake.field "filename" "report.pdf" +:+ ", "
      +:+ Fake.field "html" Fake.hi_html +:+ ", "
      +:+ Fake.field "title" "Report" +:+ "}".

Definition invoice_text : string :=
  "{" +:+ Fake.field "filename" "invoice.pdf" +:+ ", "
      +:+ Fake.field "html" Fake.bye_html +:+ "}".

Definition numbered_data : gmap string value :=
  {[ "filename" := VInt 5; "html" := VStr Fake.hi_html ]}.

Definition titled_data : gmap string value :=
  {[ "filename" := VStr "report.pdf"; "html" := VStr Fake.hi_html;
     "title" := VStr "Report" ]}.

Definition invoice_data : gmap string value :=
  {[ "filename" := VStr "invoice.pdf"; "html" := VStr Fake.bye_html ]}.

Definition decode (s : string) : option value :=
  if String.eqb s list_text then Some (VList [])
  else if String.eqb s empty_object_text then Some (VDict ∅)
  else if String.eqb s numbered_text then Some (VDict numbered_data)
  else if String.eqb s titled_text then Some (VDict titled_data)
  else if String.eqb s invoice_text then Some (VDict invoice_data)
  else Fake.decode s.

Definition platform : Platform := {|
  S3_BUCKET_NAME := Some "my-bucket";
  json_loads := decode;
  py_repr := fun _ => "?";
  binary_present := String.eqb wkhtmltopdf_path;
  wkhtmltopdf := Fake.render;
  s3_accepts := Fake.accepts
|}.

(** The same process started without [S3_BUCKET_NAME]. *)
Definition unconfigured : Platform := {|
  S3_BUCKET_NAME := None;
  json_loads := decode;
  py_repr := fun _ => "?";
  binary_present := String.eqb wkhtmltopdf_path;
  wkhtmltopdf := Fake.render;
  s3_accepts := fun _ _ => true
|}.

Definition null_body_event : gmap string value := {[ "body" := VNone ]}.

Definition routed_event : gmap string value :=
  {[ "body" := VStr (Fake.report_text Fake.hi_html); "path" := VStr "/pdf" ]}.

(** The world after the report and then the invoice were generated. *)
Definition after_both : world :=
  mk_world
    {[ "/tmp/report.pdf" := Fake.pdf_of Fake.hi_html;
       "/tmp/invoice.pdf" := Fake.pdf_of Fake.bye_html ]}
    {[ ("my-bucket", "report.pdf")
         := mk_object (Fake.pdf_of Fake.hi_html) "application/pdf" "public-read";
       ("my-bucket", "invoice.pdf")
         := mk_object (Fake.pdf_of Fake.bye_html) "application/pdf" "public-read" ]}
    [mk_put "public-read" (Fake.pdf_of Fake.hi_html) "application/pdf"
       (Some "my-bucket") (VStr "report.pdf");
     mk_put "public-read" (Fake.pdf_of Fake.bye_html) "application/pdf"
       (Some "my-bucket") (VStr "invoice.pdf")].

Definition invoice_response : response :=
  mk_response
    {[ "Access-Control-Allow-Origin" := VStr "*";
       "Access-Control-Allow-Credentials" := VBool true ]}
    200 "https://my-bucket.s3.amazonaws.com/invoice.pdf".

(** What a call leaves when the render went through and the upload did
    not. *)
Definition after_failed_upload (bucket : option string) (key : value) (path : string)
    (html : string) : world :=
  mk_world {[ path := Fake.pdf_of html ]} ∅
           [mk_put "public-read" (Fake.pdf_of html) "application/pdf" bucket key].

End Edge.

Example run_numbered :
  @generate_pdf Edge.platform (Fake.event_of Edge.numbered_text) VNone Fake.empty_world
  = (Err ParamValidationError,
     Edge.after_failed_upload (Some "my-bucket") (VInt 5) "/tmp/5" Fake.hi_html).
Proof. vm_compute. reflexivity. Qed.

Example run_unconfigured :
  @generate_pdf Edge.unconfigured Fake.hi_event VNone Fake.empty_world
  = (Err ParamValidationError,
     Edge.after_failed_upload None (VStr "report.pdf") "/tmp/report.pdf" Fake.hi_html).
Proof. vm_compute. reflexivity. Qed.

Example run_invoice_after_report :
  @generate_pdf Edge.platform (Fake.event_of Edge.invoice_text) VNone Fake.after_hi
  = (Ok Edge.invoice_response, Edge.after_both).
Proof. vm_compute. reflexivity. Qed.

Section Edges.
Context `{Platform}.

Implicit Types (event : gmap string value) (context : value).
Implicit Types (w : world) (r : response) (e : exn).

(** What one [put_object] call does to each part of the world. *)
Lemma put_object_effects req w res w' :
  put_object req w = (res, w') →
  files w' = files w ∧
  put_calls w' = put_calls w ++ [req] ∧
  ((∃ e, res = Err e ∧ objects w' = objects w) ∨
   (∃ bucket k,
      res = Ok tt ∧ Bucket req = Some bucket ∧ Key req = VStr k ∧
      objects w' = <[ (bucket, k) := stored req ]> (objects w))).
Proof.
  unfold put_object. intros Hp.
  destruct (Bucket req) as [bucket|].
  2:{ destruct (Key req); injection Hp as <- <-; eauto 10. }
  destruct (Key req) as [| | | |k| |]; try (injection Hp as <- <-; eauto 10).
  destruct (s3_accepts req (objects w)); injection Hp as <- <-; [|eauto 10].
  split; [done|]. split; [done|]. right. by exists bucket, k.
Qed.

(** A call either stops before the renderer has written anything, with the
    world as it was, or renders and goes on to the upload. *)
Lemma generate_pdf_cases event context w :
  (∃ e, generate_pdf event context w = (Err e, w) ∧
        (resolve_input event = Err e ∨ e = IOError)) ∨
  (∃ key html pdf,
     resolve_input event = Ok (key, html) ∧
     binary_present wkhtmltopdf_path = true ∧
     wkhtmltopdf (mk_configuration wkhtmltopdf_path) html (tmp_path key) (files w)
       = Some pdf ∧
     generate_pdf event context w =
       match put_object (upload_request key pdf)
               (mk_world (<[ tmp_path key := pdf ]> (files w)) (objects w) (put_calls w)) with
       | (Ok _, w') => (Ok (mk_response cors_headers 200 (format_url S3_BUCKET_NAME key)), w')
       | (Err e, w') => (Err e, w')
       end).
Proof.
  destruct (resolve_input event) as [[key html]|e] eqn:Hr.
  2:{ left. exists e. split; [by apply generate_pdf_input_error|by left]. }
  destruct (binary_present wkhtmltopdf_path) eqn:Hb.
  2:{ left. exists IOError. split; [by eapply generate_pdf_no_binary|by right]. }
  destruct (wkhtmltopdf (mk_configuration wkhtmltopdf_path) html (tmp_path key) (files w))
    as [pdf|] eqn:Hw.
  2:{ left. exists IOError. split; [by eapply generate_pdf_render_error|by right]. }
  right. exists key, html, pdf. repeat split; try done.
  by apply (generate_pdf_rendered _ _ _ _ html).
Qed.

Lemma generate_pdf_same_input event1 event2 context1 context2 w :
  resolve_input event1 = resolve_input event2 →
  generate_pdf event1 context1 w = generate_pdf event2 context2 w.
Proof. intros Hr. unfold generate_pdf. by rewrite Hr. Qed.

(** A call that raises has not changed the bucket. *)
Lemma generate_pdf_Err_objects event context w e w' :
  generate_pdf event context w = (Err e, w') → objects w' = objects w.
Proof.
  intros Hg.
  destruct (generate_pdf_cases event context w)
    as [(e' & Hstop & _)|(key & html & pdf & _ & _ & _ & Hrun)].
  - rewrite Hstop in Hg. by injection Hg as _ <-.
  - rewrite Hrun in Hg.
    destruct (put_object _ _) as [[u|e1] w1] eqn:Hp; [done|].
    injection Hg as _ <-.
    apply put_object_effects in Hp as (_ & _ & [(e2 & _ & Ho)|(b & k & ? & _)]);
      [exact Ho|done].
Qed.

(** X1: a ['body'] that is present but is not text (a null body, a number,
    an already decoded object) does not fall back to the defaults: the call
    raises [TypeError] and changes nothing. *)
Theorem body_must_be_text event context w b :
  event !! "body" = Some b →
  (∀ s, b ≠ VStr s) →
  generate_pdf event context w = (Err TypeError, w).
Proof.
  intros Hb Hns. apply generate_pdf_input_error.
  unfold resolve_input. rewrite Hb.
  destruct b; try done. by destruct (Hns s).
Qed.

(** X2: a body that is valid JSON but not an object (a list, a string, a
    number, null) raises [TypeError] at the first subscript and changes
    nothing. *)
Theorem body_must_decode_to_object event context w s data :
  event !! "body" = Some (VStr s) →
  json_loads s = Some data →
  (∀ d, data ≠ VDict d) →
  generate_pdf event context w = (Err TypeError, w).
Proof.
  intros Hb Hs Hnd. apply generate_pdf_input_error.
  unfold resolve_input. rewrite Hb. simpl. rewrite Hs. simpl.
  destruct data; try done. by destruct (Hnd d).
Qed.

(** X3: ['filename'] is read before ['html']: without ['filename'] the
    exception names ['filename'] whether ['html'] is there or not, and
    ['html'] is named only when ['filename'] is present. *)
Theorem filename_is_read_first event context w s d :
  event !! "body" = Some (VStr s) →
  json_loads s = Some (VDict d) →
  (d !! "filename" = None →
     generate_pdf event context w = (Err (KeyError "filename"), w)) ∧
  (is_Some (d !! "filename") → d !! "html" = None →
     generate_pdf event context w = (Err (KeyError "html"), w)).
Proof.
  intros Hb Hs. split.
  - intros Hk. apply generate_pdf_input_error.
    unfold resolve_input. rewrite Hb. simpl. rewrite Hs. simpl. by rewrite Hk.
  - intros [key Hk] Hh. apply generate_pdf_input_error.
    unfold resolve_input. rewrite Hb. simpl. rewrite Hs. simpl. rewrite Hk. simpl.
    by rewrite Hh.
Qed.

(** X4: of the event only ['body'] is read, and the context not at all: two
    invocations whose events agree on ['body'] end with the same outcome and
    the same world. *)
Theorem only_body_is_read event1 event2 context1 context2 w :
  event1 !! "body" = event2 !! "body" →
  generate_pdf event1 context1 w = generate_pdf event2 context2 w.
Proof.
  intros Hb. apply generate_pdf_same_input. unfold resolve_input. by rewrite Hb.
Qed.

(** X5: of the decoded object only ['filename'] and ['html'] are read: two
    bodies whose objects agree on these two keys give the same outcome and
    the same world, whatever else they carry. *)
Theorem other_fields_are_ignored event1 event2 context w s1 s2 d1 d2 :
  event1 !! "body" = Some (VStr s1) → json_loads s1 = Some (VDict d1) →
  event2 !! "body" = Some (VStr s2) → json_loads s2 = Some (VDict d2) →
  d1 !! "filename" = d2 !! "filename" →
  d1 !! "html" = d2 !! "html" →
  generate_pdf event1 context w = generate_pdf event2 context w.
Proof.
  intros Hb1 Hs1 Hb2 Hs2 Hk Hh. apply generate_pdf_same_input.
  unfold resolve_input. rewrite Hb1, Hb2. simpl. rewrite Hs1, Hs2. simpl.
  by rewrite Hk, Hh.
Qed.

(** X6: the bucket changes only when the call returns, and then only at the
    requested key of the configured bucket: a call that raises leaves every
    object as it was, and a call that returns leaves every other object as
    it was. *)
Theorem bucket_changes_only_at_key event context w res w' :
  generate_pdf event context w = (res, w') →
  (∀ e, res = Err e → objects w' = objects w) ∧
  (∀ r, res = Ok r →
     ∃ bucket k html,
       S3_BUCKET_NAME = Some bucket ∧
       resolve_input event = Ok (VStr k, html) ∧
       ∀ bucket' k', (bucket', k') ≠ (bucket, k) →
         objects w' !! (bucket', k') = objects w !! (bucket', k')).
Proof.
  intros Hg. split.
  - intros e ->. by eapply generate_pdf_Err_objects.
  - intros r ->.
    apply generate_pdf_Ok_inv in Hg as (bucket & k & pdf & Hall & _ & ->).
    destruct Hall as (html & Hr & _ & _ & Hbucket & _).
    exists bucket, k, html. split; [done|]. split; [done|].
    intros bucket' k' Hne. unfold success_world; simpl.
    by rewrite lookup_insert_ne.
Qed.






End Edges.

(** ** The edge behaviour on the running examples *)

Lemma body_must_be_text_witness :
  @generate_pdf Edge.platform Edge.null_body_event VNone Fake.after_hi
  = (Err TypeError, Fake.after_hi).
Proof.
  apply (@body_must_be_text Edge.platform Edge.null_body_event VNone Fake.after_hi VNone).
  - vm_compute; reflexivity.
  - intros s. discriminate.
Defined.

Lemma body_must_decode_to_object_witness :
  @generate_pdf Edge.platform (Fake.event_of Edge.list_text) VNone Fake.after_hi
  = (Err TypeError, Fake.after_hi).
Proof.
  apply (@body_must_decode_to_object Edge.platform (Fake.event_of Edge.list_text) VNone
           Fake.after_hi Edge.list_text (VList [])).
  - vm_compute; reflexivity.
  - vm_compute; reflexivity.
  - intros d. discriminate.
Defined.

Lemma filename_is_read_first_witness :
  @generate_pdf Edge.platform (Fake.event_of Edge.empty_object_text) VNone Fake.empty_world
  = (Err (KeyError "filename"), Fake.empty_world).
Proof.
  destruct (@filename_is_read_first Edge.platform (Fake.event_of Edge.empty_object_text)
              VNone Fake.empty_world Edge.empty_object_text ∅) as [Hfirst _].
  - vm_compute; reflexivity.
  - vm_compute; reflexivity.
  - apply Hfirst. vm_compute; reflexivity.
Defined.

Lemma only_body_is_read_witness :
  @generate_pdf Edge.platform Edge.routed_event (VStr "ctx") Fake.empty_world
  = @generate_pdf Edge.platform Fake.hi_event VNone Fake.empty_world.
Proof.
  apply (@only_body_is_read Edge.platform Edge.routed_event Fake.hi_event (VStr "ctx") VNone
           Fake.empty_world).
  vm_compute; reflexivity.
Defined.

Lemma other_fields_are_ignored_witness :
  @generate_pdf Edge.platform (Fake.event_of Edge.titled_text) VNone Fake.empty_world
  = @generate_pdf Edge.platform Fake.hi_event VNone Fake.empty_world.
Proof.
  apply (@other_fields_are_ignored Edge.platform (Fake.event_of Edge.titled_text)
           Fake.hi_event VNone Fake.empty_world Edge.titled_text
           (Fake.report_text Fake.hi_html) Edge.titled_data (Fake.report_data Fake.hi_html));
    vm_compute; reflexivity.
Defined.

Lemma bucket_changes_only_at_key_witness :
  ∃ bucket k html,
    @S3_BUCKET_NAME Edge.platform = Some bucket ∧
    @resolve_input Edge.platform (Fake.event_of Edge.invoice_text) = Ok (VStr k, html) ∧
    ∀ bucket' k', (bucket', k') ≠ (bucket, k) →
      objects Edge.after_both !! (bucket', k') = objects Fake.after_hi !! (bucket', k').
Proof.
  destruct (@bucket_changes_only_at_key Edge.platform (Fake.event_of Edge.invoice_text)
              VNone Fake.after_hi (Ok Edge.invoice_response) Edge.after_both) as [_ Hret].
  - vm_compute; reflexivity.
  - apply (Hret Edge.invoice_response). reflexivity.
Defined.





